(** * rust-hkt: the associated-type encoding of higher-kinded types

    Shallow embedding of [src/src/part2.rs] and [src/src/part2_alternate.rs].

    A Rust trait with associated types becomes a type class whose fields are
    the associated types; a trait with a method becomes a type class over the
    first one whose field is the method.  A Rust [Option<T>] is Rocq's
    [option T]; the shared reference [&T] handed to the closure is modelled
    by passing the value itself (the closure may only read it), except in
    [Section Effects], where the closure's own effects on memory are threaded
    through an explicit store. *)

From Stdlib Require Import ZArith Lia.

(** ** [src/src/part2.rs] *)
Module Part2.

(** [pub trait HKT<T> { type C; type T; }] *)
Class HKT (Self : Type) (U : Type) := {
  C : Type;
  T : Type
}.

(** [impl<T, U> HKT<U> for Option<T> { type C = T; type T = Option<U>; }] *)
#[global] Instance HKT_Option (A U : Type) : HKT (option A) U := {
  C := A;
  T := option U
}.

(** [pub trait Functor<U>: HKT<U> {
       fn fmap<F>(&self, f: F) -> Self::T where F: Fn(&Self::C) -> U; }] *)
Class Functor (Self U : Type) {H : HKT Self U} := {
  fmap : Self -> (@C Self U H -> U) -> @T Self U H
}.

(** [impl<T, U> Functor<U> for Option<T>]:
    [match *self { Some(ref value) => Some(f(value)), None => None }] *)
#[global] Instance Functor_Option (A U : Type) : Functor (option A) U := {
  fmap := fun self f =>
    match self with
    | Some value => Some (f value)
    | None => None
    end
}.

(** [pub trait Functor2<U, B>: HKT<U> where Self::T: HKT<B> {
       fn fmap<F>(&self, f: F) -> Self::T where F: Fn(&Self::C) -> U; }]
    (in a module of its own: its method is also called [fmap]) *)
Module Functor2Decl.

Class Functor2 (Self U B : Type) {H : HKT Self U} {H2 : HKT (@T Self U H) B} := {
  fmap : Self -> (@C Self U H -> U) -> @T Self U H
}.

(** [impl<T, U, B> Functor2<U, B> for Option<T> where Self::T: Functor<B>]:
    the same [match] as the [Functor] impl. *)
#[global] Instance Functor2_Option (A U B : Type)
  {FB : @Functor (option U) B (HKT_Option U B)}
  : @Functor2 (option A) U B (HKT_Option A U) (HKT_Option U B) := {
  fmap := fun self f =>
    match self with
    | Some value => Some (f value)
    | None => None
    end
}.

End Functor2Decl.

End Part2.

(** ** The closure's effects

    [F: Fn(&T) -> U] forbids the closure from mutating its captures through
    [&mut], but a shared reference still allows interior mutability: through
    [&Cell<i32>] the closure may [set] the very value held by the borrowed
    container.  Here the closure is a store transformer and [fmap_st] is the
    [Functor] impl for [Option<T>] with the closure's effects threaded through
    the store; [fmap] itself neither reads nor writes the store. *)
Section Effects.

Variable St : Type.

(** [match *self { Some(ref value) => Some(f(value)), None => None }],
    where the call [f(value)] may act on the store. *)
Definition fmap_st {A U : Type} (self : option A) (f : A -> St -> U * St)
    (s : St) : option U * St :=
  match self with
  | Some value => let (u, s') := f value s in (Some u, s')
  | None => (None, s)
  end.

(** A call [x.fmap(f)] on a container [x] that lives in the store: the
    receiver [&self] is the container read at its place, [get]. *)
Definition fmap_ref {A U : Type} (get : St -> option A) (f : A -> St -> U * St)
    (s : St) : option U * St :=
  fmap_st (get s) f s.

End Effects.

(** ** Rust [i32] *)

(** Two's-complement wrap-around of a mathematical integer to 32 bits. *)
Definition wrap_i32 (z : Z) : Z :=
  ((z + 2 ^ 31) mod 2 ^ 32) - 2 ^ 31.

(** [i * 2] on [i32] (wrapping, as in a release build; the values used
    below do not overflow). *)
Definition double_i32 (i : Z) : Z := wrap_i32 (i * 2).

(** ** [src/src/part2_alternate.rs] *)
Module Part2Alternate.

(** [pub trait HKT<T> { type C; type T; }] *)
Class HKT (Self : Type) (U : Type) := {
  C : Type;
  T : Type
}.

(** [impl<T, U> HKT<U> for Option<T> { type C = T; type T = Option<U>; }] *)
#[global] Instance HKT_Option (A U : Type) : HKT (option A) U := {
  C := A;
  T := option U
}.

(** [pub trait Functor<U>: HKT<U> {
       fn fmap<F>(&self, f: F) -> Self::T where F: Fn(&Self::C) -> U; }] *)
Class Functor (Self U : Type) {H : HKT Self U} := {
  fmap : Self -> (@C Self U H -> U) -> @T Self U H
}.

(** [impl<T, U> Functor<U> for Option<T>]:
    [match *self { Some(ref value) => Some(f(value)), None => None }] *)
#[global] Instance Functor_Option (A U : Type) : Functor (option A) U := {
  fmap := fun self f =>
    match self with
    | Some value => Some (f value)
    | None => None
    end
}.

End Part2Alternate.

(** ** Doc-test functions generic over a functor *)

(** [fn double_in_context<F>(f: F) -> F::T where F: Functor<i32, C=i32>
       { f.fmap(|i| i * 2) }]  (doc test of [src/src/part2.rs]).
    The bound [C=i32] is the equation [HC]; the closure reads the [i32]
    through it. *)
Module Part2Examples.

Definition double_in_context {F : Type} {H : Part2.HKT F Z}
    {Fu : @Part2.Functor F Z H} (HC : @Part2.C F Z H = Z) (f : F)
    : @Part2.T F Z H :=
  Part2.fmap f (fun i => double_i32 (match HC in _ = X return X with eq_refl => i end)).

End Part2Examples.

(** The same doc test in [src/src/part2_alternate.rs]. *)
Module Part2AlternateExamples.

Definition double_in_context {F : Type} {H : Part2Alternate.HKT F Z}
    {Fu : @Part2Alternate.Functor F Z H} (HC : @Part2Alternate.C F Z H = Z) (f : F)
    : @Part2Alternate.T F Z H :=
  Part2Alternate.fmap f (fun i => double_i32 (match HC in _ = X return X with eq_refl => i end)).

End Part2AlternateExamples.

(** A closure instrumented with a call counter kept beside the store. *)
Definition counted {St A U : Type} (f : A -> St -> U * St)
    : A -> nat * St -> U * (nat * St) :=
  fun a ns => let (u, s') := f a (snd ns) in (u, (S (fst ns), s')).

(** * Properties *)

(** C1: [fmap] on a present container holding [v] returns a present
    container holding [f v]; on an absent container it returns absent,
    whatever [f] is (in both files), and even when the closure has effects
    on the store it is not called: the store is left as it was. *)
Theorem fmap_option_spec :
  (forall (A U : Type) (v : A) (f : A -> U),
      Part2.fmap (Some v) f = Some (f v)
      /\ Part2Alternate.fmap (Some v) f = Some (f v))
  /\ (forall (A U : Type) (f : A -> U),
      Part2.fmap (None : option A) f = None
      /\ Part2Alternate.fmap (None : option A) f = None)
  /\ (forall (St A U : Type) (v : A) (f : A -> St -> U * St) (s : St),
      fmap_st St (Some v) f s = (Some (fst (f v s)), snd (f v s)))
  /\ (forall (St A U : Type) (f : A -> St -> U * St) (s : St),
      fmap_st St (None : option A) f s = (None, s)).
Proof.
  split; [|split; [|split]]; intros; try split; try reflexivity.
  cbn. destruct (f v s); reflexivity.
Qed.

(** C2: identity law, [x.fmap(|v| v)] is [x] for a present or an absent
    container. *)
Theorem fmap_identity :
  forall (A : Type) (x : option A), @Part2.fmap (option A) A _ (Part2.Functor_Option A A) x (fun v => v) = x.
Proof. intros A [v|]; reflexivity. Qed.

(** C3: composition law, [x.fmap(f).fmap(g)] equals [x.fmap(g . f)]. *)
Theorem fmap_composition :
  forall (A B D : Type) (x : option A) (f : A -> B) (g : B -> D),
    @Part2.fmap (option B) D _ (Part2.Functor_Option B D)
      (@Part2.fmap (option A) B _ (Part2.Functor_Option A B) x f) g
    = @Part2.fmap (option A) D _ (Part2.Functor_Option A D) x (fun a => g (f a)).
Proof. intros A B D [a|] f g; reflexivity. Qed.

(** C4: shape preservation, whatever the function: a present container is
    never mapped to absent, an absent one never to present. *)
Theorem fmap_shape :
  forall (A U : Type) (f : A -> U),
    (forall v : A, @Part2.fmap (option A) U _ (Part2.Functor_Option A U) (Some v) f <> None)
    /\ (forall u : U, @Part2.fmap (option A) U _ (Part2.Functor_Option A U) None f <> Some u).
Proof. intros A U f; split; intros; discriminate. Qed.

(** C6: for [impl HKT<U> for Option<T>], the current type [C] is the held
    type [T] and the applied type [T] is [Option<U>], for every [U]. *)
Theorem hkt_option_types :
  forall A U : Type,
    @Part2.C (option A) U (Part2.HKT_Option A U) = A /\ @Part2.T (option A) U (Part2.HKT_Option A U) = option U
    /\ @Part2Alternate.C (option A) U (Part2Alternate.HKT_Option A U) = A
    /\ @Part2Alternate.T (option A) U (Part2Alternate.HKT_Option A U) = option U.
Proof. intros; repeat split. Qed.

(** C7: the two files give the same associated types for [Option<T>] and
    the same [fmap] on every container and function. *)
Theorem part2_alternate_same :
  forall A U : Type,
    @Part2.C (option A) U (Part2.HKT_Option A U) = @Part2Alternate.C (option A) U (Part2Alternate.HKT_Option A U)
    /\ @Part2.T (option A) U (Part2.HKT_Option A U) = @Part2Alternate.T (option A) U (Part2Alternate.HKT_Option A U)
    /\ (forall (x : option A) (f : A -> U),
          @Part2.fmap (option A) U _ (Part2.Functor_Option A U) x f
          = @Part2Alternate.fmap (option A) U _ (Part2Alternate.Functor_Option A U) x f).
Proof. intros A U; split; [|split]; [reflexivity|reflexivity|]. intros [v|] f; reflexivity. Qed.

(** C8: [Some(1).fmap(|i| i * 2)] is [Some(2)] and [None.fmap(|i| i * 2)]
    is [None]. *)
Theorem fmap_double_example :
  Part2.fmap (Some 1%Z) double_i32 = Some 2%Z
  /\ Part2.fmap (None : option Z) double_i32 = None.
Proof. split; reflexivity. Qed.

(** C9 (as claimed, refuted): the container lives in the store as an
    [Option<Cell<i32>>] (the store is its content), and the closure is
    [|c| c.replace(7)], an [Fn(&Cell<i32>) -> i32].  After
    [Some(Cell::new(1)).fmap(..)] the original container holds [7]. *)
Lemma fmap_cell_mutates_receiver :
  let f := fun (_ : Z) (s : option Z) =>
             (match s with Some old => old | None => 0%Z end, Some 7%Z) in
  fmap_ref (option Z) (fun s => s) f (Some 1%Z) = (Some 1%Z, Some 7%Z)
  /\ snd (fmap_ref (option Z) (fun s => s) f (Some 1%Z)) <> Some 1%Z.
Proof. cbn. split; [reflexivity | discriminate]. Qed.

(** C9 (amended): [fmap] writes nothing itself.  When the closure leaves
    memory as it found it, the store, and so the borrowed container, is
    unchanged after the call, and the result is the new value
    [get s].fmap(..). *)
Theorem fmap_ref_frame :
  forall (St A U : Type) (get : St -> option A) (f : A -> St -> U * St)
         (s : St),
    (forall v s0, snd (f v s0) = s0) ->
    fmap_ref St get f s = (Part2.fmap (get s) (fun v => fst (f v s)), s)
    /\ get (snd (fmap_ref St get f s)) = get s.
Proof.
  intros St A U get f s Hf.
  assert (E : fmap_ref St get f s = (Part2.fmap (get s) (fun v => fst (f v s)), s)).
  { unfold fmap_ref, fmap_st. destruct (get s) as [v|]; cbn; [|reflexivity].
    specialize (Hf v s). destruct (f v s) as [u s']; cbn in *; subst; reflexivity. }
  split; [exact E | rewrite E; reflexivity].
Qed.

Lemma fmap_ref_frame_witness :
  (forall (v : nat) (s0 : nat), snd ((fun v s => (v + s, s)) v s0) = s0)
  /\ fmap_ref nat (fun _ => Some 3) (fun v s => (v + s, s)) 4
     = (Part2.fmap (Some 3) (fun v => fst ((fun v s => (v + s, s)) v 4)), 4)
  /\ (fun _ : nat => Some 3) (snd (fmap_ref nat (fun _ => Some 3) (fun v s => (v + s, s)) 4))
     = Some 3.
Proof.
  split; [intros; reflexivity|].
  apply (fmap_ref_frame nat nat nat (fun _ => Some 3) (fun v s => (v + s, s)) 4).
  intros; reflexivity.
Defined.

(** C10: the [Functor2] impl for [Option<T>] computes what the [Functor]
    impl computes, for every container and function. *)
Theorem functor2_fmap_eq_fmap :
  forall (A U B : Type) (x : option A) (f : A -> U),
    @Part2.Functor2Decl.fmap (option A) U B _ _ (Part2.Functor2Decl.Functor2_Option A U B) x f
    = @Part2.fmap (option A) U _ (Part2.Functor_Option A U) x f.
Proof. intros A U B [v|] f; reflexivity. Qed.



(** [fmap] calls the closure exactly once on a present container and never
    on an absent one, and counting the calls does not change the result. *)
Theorem fmap_st_call_count :
  forall (St A U : Type) (x : option A) (f : A -> St -> U * St) (n : nat) (s : St),
    fst (snd (fmap_st (nat * St) x (counted f) (n, s)))
      = (n + match x with Some _ => 1 | None => 0 end)%nat
    /\ fst (fmap_st (nat * St) x (counted f) (n, s)) = fst (fmap_st St x f s)
    /\ snd (snd (fmap_st (nat * St) x (counted f) (n, s))) = snd (fmap_st St x f s).
Proof.
  intros St A U [v|] f n s; cbn; [|repeat split; lia].
  unfold counted; cbn. destruct (f v s) as [u s']; cbn. repeat split; lia.
Qed.

(** Composition with effects: mapping with [f] and then with [g] runs the
    closures' effects in that order and gives what one [fmap] with the
    sequenced closure gives. *)
Theorem fmap_st_composition :
  forall (St A B D : Type) (x : option A) (f : A -> St -> B * St)
         (g : B -> St -> D * St) (s : St),
    fmap_st St (fst (fmap_st St x f s)) g (snd (fmap_st St x f s))
    = fmap_st St x (fun a s0 => let (b, s1) := f a s0 in g b s1) s.
Proof.
  intros St A B D [a|] f g s; cbn; [|reflexivity].
  destruct (f a s) as [b s1]; cbn. destruct (g b s1); reflexivity.
Qed.

(** The [Functor2] bound [Self::T: Functor<B>] lets the result of the
    [Functor2] impl's [fmap] be mapped again with the [Functor] impl; for
    [Option<T>] the chain equals one [fmap] with the composed function. *)
Theorem functor2_then_functor :
  forall (A U B : Type) (x : option A) (f : A -> U) (g : U -> B),
    @Part2.fmap (option U) B _ (Part2.Functor_Option U B)
      (@Part2.Functor2Decl.fmap (option A) U B _ _
         (Part2.Functor2Decl.Functor2_Option A U B) x f) g
    = @Part2.fmap (option A) B _ (Part2.Functor_Option A B) x (fun a => g (f a)).
Proof. intros A U B [a|] f g; reflexivity. Qed.
